(** * Wallet-Fullstack: a shallow embedding of the frontend's transfer,
    aggregation and login-form logic, and of the recurring-transaction
    schedule, with the properties the specification states about them.

    JavaScript numbers are modelled as exact rationals [Q]; [Math.round]
    is [floor (x + 1/2)]. JS objects used as maps (the exchange-rate
    table, [sessionStorage]) are stdpp [gmap]s with string keys; the
    [Record<Currency, number>] accumulator whose [Object.entries] order
    matters is an association list in insertion order. *)

From Stdlib Require Import ZArith QArith Qround Qabs Lia.
From stdpp Require Import base gmap strings list.

Local Open Scope Q_scope.

(* ------------------------------------------------------------------ *)
(** ** models/Account.ts, models/Transaction.ts *)

Inductive Currency := USD | EGP | GBP | EUR.

#[global] Instance Currency_eq_dec : EqDecision Currency.
Proof. solve_decision. Defined.

(** The string value of each [Currency] enum member. *)
Definition currency_code (c : Currency) : string :=
  match c with
  | USD => "USD" | EGP => "EGP" | GBP => "GBP" | EUR => "EUR"
  end.

Definition currency_eqb (a b : Currency) : bool := bool_decide (a = b).

Record Account := mkAccount {
  acc_id : Z;
  acc_initial_balance : Q;
  acc_currency : Currency
}.

Inductive TransactionType := INCOME | EXPENSE | TRANSFER.

#[global] Instance TransactionType_eq_dec : EqDecision TransactionType.
Proof. solve_decision. Defined.

(** A calendar date; [month] is 1..12 as in ISO strings. *)
Record Date := mkDate { year : Z; month : Z; day : Z }.

Record Transaction := mkTransaction {
  t_amount : Q;
  t_type : TransactionType;
  t_date : Date;
  t_currency : Currency;
  t_account_id : Z
}.

(* ------------------------------------------------------------------ *)
(** ** JavaScript number helpers *)

(** [Math.round x] *)
Definition math_round (x : Q) : Z := Qfloor (x + (1 # 2)).

(** [Math.round(x * 100) / 100] *)
Definition round2 (x : Q) : Q := inject_Z (math_round (x * 100)) / 100.

(** [Math.round(x * 10000) / 10000] *)
Definition round4 (x : Q) : Q := inject_Z (math_round (x * 10000)) / 10000.

(** [x || 1] for a number read from a [Record<string, number>]:
    [undefined] and [0] are falsy and give [1]. *)
Definition or_one (o : option Q) : Q :=
  match o with
  | Some r => if Qeq_bool r 0 then 1 else r
  | None => 1
  end.

(** [x > y] on JS numbers. *)
Definition Qgtb (x y : Q) : bool := negb (Qle_bool x y).

(* ------------------------------------------------------------------ *)
(** ** services/transactionService.ts, pages/TransferPage.tsx *)

Record TransferCreateRequest := mkTransfer {
  from_account_id : Z;
  to_account_id : Z;
  amount : Q;
  converted_amount : option Q
}.

(** [getExchangeRates] returns a [Record<string, number>]. *)
Abbreviation ExchangeRates := (gmap string Q).

Record ConversionPreview := mkPreview {
  originalAmount : Q;
  convertedAmount : Q;
  exchangeRate : Q;
  sameCurrency : bool;
  isCustomRate : bool
}.

(** [accounts.find(a => a.id === id)] *)
Definition find_account (accounts : list Account) (id : Z) : option Account :=
  List.find (fun a => Z.eqb (acc_id a) id) accounts.

(** The guard [useCustomRate && transferData.converted_amount &&
    transferData.converted_amount > 0]: the custom amount when it holds. *)
Definition custom_amount (useCustomRate : bool) (co : option Q) : option Q :=
  match co with
  | Some ca => if useCustomRate && negb (Qeq_bool ca 0) && Qgtb ca 0 then Some ca else None
  | None => None
  end.

(** [getConversionPreview] of [TransferPage]; [None] is its [null]. *)
Definition getConversionPreview (accounts : list Account)
    (transferData : TransferCreateRequest) (useCustomRate : bool)
    (exchangeRates : ExchangeRates) : option ConversionPreview :=
  match find_account accounts (from_account_id transferData),
        find_account accounts (to_account_id transferData) with
  | Some fromAccount, Some toAccount =>
      if Qle_bool (amount transferData) 0 then None
      else if currency_eqb (acc_currency fromAccount) (acc_currency toAccount) then
        Some (mkPreview (amount transferData) (amount transferData) 1 true false)
      else
        match custom_amount useCustomRate (converted_amount transferData) with
        | Some ca =>
            let exchangeRate := ca / amount transferData in
            Some (mkPreview (amount transferData) ca (round4 exchangeRate) false true)
        | None =>
            let fromRate := or_one (exchangeRates !! currency_code (acc_currency fromAccount)) in
            let toRate := or_one (exchangeRates !! currency_code (acc_currency toAccount)) in
            let usdAmount := amount transferData / fromRate in
            let convertedAmount := usdAmount * toRate in
            let exchangeRate := convertedAmount / amount transferData in
            Some (mkPreview (amount transferData) (round2 convertedAmount)
                            (round4 exchangeRate) false false)
        end
  | _, _ => None
  end.

(* ------------------------------------------------------------------ *)
(** ** pages/AnalyticsPage.tsx, pages/Dashboard.tsx *)

Record TotalBalance := mkTotal { tb_amount : Q; tb_currency : Currency }.

(** [(acc[c] || 0)] *)
Definition or_zero (o : option Q) : Q :=
  match o with
  | Some r => r
  | None => 0
  end.

(** [acc[account.currency] = (acc[account.currency] || 0) + balance] on a
    JS object: an existing key keeps its place, a new key goes last. *)
Fixpoint set_total (acc : list (Currency * Q)) (c : Currency) (v : Q)
    : list (Currency * Q) :=
  match acc with
  | [] => [(c, v)]
  | (c', v') :: rest =>
      if currency_eqb c' c then (c, v) :: rest else (c', v') :: set_total rest c v
  end.

Fixpoint get_total (acc : list (Currency * Q)) (c : Currency) : option Q :=
  match acc with
  | [] => None
  | (c', v') :: rest => if currency_eqb c' c then Some v' else get_total rest c
  end.

(** [accounts.reduce((acc, account) => ..., {})]: [currencyTotals], an
    object whose [Object.entries] come in insertion order. *)
Definition currencyTotals (accounts : list Account) : list (Currency * Q) :=
  fold_left (fun acc account =>
      set_total acc (acc_currency account)
        (or_zero (get_total acc (acc_currency account)) + acc_initial_balance account))
    accounts [].

(** [Object.entries(currencyTotals).reduce((max, [currency, amount]) =>
      amount > max.amount ? { currency, amount } : max,
      { currency: Currency.USD, amount: 0 })] *)
Definition dominantCurrency (totals : list (Currency * Q)) : TotalBalance :=
  fold_left (fun max '(currency, amt) =>
      if Qgtb amt (tb_amount max) then mkTotal amt currency else max)
    totals (mkTotal 0 USD).

(** [calculateTotalBalance], identical in [Dashboard] and [AnalyticsPage]. *)
Definition calculateTotalBalance (accounts : list Account) : TotalBalance :=
  match accounts with
  | [] => mkTotal 0 USD
  | first :: _ =>
      let firstCurrency := acc_currency first in
      if forallb (fun account => currency_eqb (acc_currency account) firstCurrency) accounts
      then mkTotal (fold_left (fun sum account => sum + acc_initial_balance account) accounts 0)
                   firstCurrency
      else dominantCurrency (currencyTotals accounts)
  end.

(** The current month and year, [new Date().getMonth()/getFullYear()]. *)
Record Now := mkNow { now_month : Z; now_year : Z }.

Definition in_month (now : Now) (t : Transaction) : bool :=
  Z.eqb (month (t_date t)) (now_month now) && Z.eqb (year (t_date t)) (now_year now).

Definition type_eqb (a b : TransactionType) : bool := bool_decide (a = b).

Definition sum_amounts (ts : list Transaction) : Q :=
  fold_left (fun sum t => sum + t_amount t) ts 0.

(** The figures the [AnalyticsPage] renders from its two queries. *)
Record AnalyticsView := mkAnalytics {
  av_totalBalance : TotalBalance;
  av_totalIncome : Q;
  av_totalExpenses : Q;
  (** "Account Breakdown": one [(id, initial_balance, currency)] per account *)
  av_breakdown : list (Z * Q * Currency)
}.

Definition analyticsView (accounts : list Account) (transactions : list Transaction)
    (now : Now) : AnalyticsView :=
  let totalBalance := calculateTotalBalance accounts in
  let monthlyTransactions := filter (in_month now) transactions in
  let totalIncome := sum_amounts (filter (fun t =>
        type_eqb (t_type t) INCOME && currency_eqb (t_currency t) (tb_currency totalBalance))
        monthlyTransactions) in
  let totalExpenses := sum_amounts (filter (fun t =>
        type_eqb (t_type t) EXPENSE && currency_eqb (t_currency t) (tb_currency totalBalance))
        monthlyTransactions) in
  mkAnalytics totalBalance totalIncome totalExpenses
    (map (fun a => (acc_id a, acc_initial_balance a, acc_currency a)) accounts).

(** The [Dashboard]'s [monthlyIncome] and [monthlyExpenses]. *)
Definition dashboardMonthly (accounts : list Account) (transactions : list Transaction)
    (now : Now) : Q * Q :=
  let totalBalance := calculateTotalBalance accounts in
  let monthlyTransactions := filter (in_month now) transactions in
  let monthlyIncomeTransactions := filter (fun t => type_eqb (t_type t) INCOME) monthlyTransactions in
  let monthlyExpenseTransactions := filter (fun t => type_eqb (t_type t) EXPENSE) monthlyTransactions in
  (sum_amounts (filter (fun t => currency_eqb (t_currency t) (tb_currency totalBalance))
                 monthlyIncomeTransactions),
   sum_amounts (filter (fun t => currency_eqb (t_currency t) (tb_currency totalBalance))
                 monthlyExpenseTransactions)).

(** The [TransferPage] component state touched by submission. *)
Record TransferPageState := mkPageState {
  transferData : TransferCreateRequest;
  showPreview : bool;
  (** requests handed to [transferMutation.mutate], newest first *)
  mutations : list TransferCreateRequest
}.

Inductive SubmitResult :=
  | Alerted (msg : string)
  | PreviewShown.

Definition same_accounts_msg : string :=
  "Please select different source and destination accounts".

(** [handleSubmit]: identical accounts raise the alert and return. *)
Definition handleSubmit (st : TransferPageState) : TransferPageState * SubmitResult :=
  if Z.eqb (from_account_id (transferData st)) (to_account_id (transferData st))
  then (st, Alerted same_accounts_msg)
  else (mkPageState (transferData st) true (mutations st), PreviewShown).

(** [confirmTransfer]: [transferMutation.mutate(transferData)]. *)
Definition confirmTransfer (st : TransferPageState) : TransferPageState :=
  mkPageState (transferData st) (showPreview st) (transferData st :: mutations st).

(* ------------------------------------------------------------------ *)
(** ** utils/loginFormState.ts *)

Abbreviation SessionStorage := (gmap string string).

Record LoginFormStateManager := mkLoginForm {
  lf_username : string;
  lf_password : string;
  lf_initialized : bool
}.

Definition username_key : string := "login_form_username".
Definition password_key : string := "login_form_password".

(** [sessionStorage.getItem(k) || ''] *)
Definition or_empty (o : option string) : string :=
  match o with
  | Some v => v
  | None => ""
  end.

Section LoginForm.
(** [typeof window !== 'undefined'] *)
Variable has_window : bool.

Definition loadFromStorage (m : LoginFormStateManager) (sto : SessionStorage)
    : LoginFormStateManager :=
  if has_window
  then mkLoginForm (or_empty (sto !! username_key)) (or_empty (sto !! password_key)) true
  else m.

(** [new LoginFormStateManager()] *)
Definition newLoginFormState (sto : SessionStorage) : LoginFormStateManager :=
  loadFromStorage (mkLoginForm "" "" false) sto.

Definition getUsername (m : LoginFormStateManager) (sto : SessionStorage)
    : string * LoginFormStateManager :=
  let m' := if lf_initialized m then m else loadFromStorage m sto in
  (lf_username m', m').

Definition getPassword (m : LoginFormStateManager) (sto : SessionStorage)
    : string * LoginFormStateManager :=
  let m' := if lf_initialized m then m else loadFromStorage m sto in
  (lf_password m', m').

Definition setUsername (value : string) (m : LoginFormStateManager) (sto : SessionStorage)
    : LoginFormStateManager * SessionStorage :=
  (mkLoginForm value (lf_password m) (lf_initialized m),
   if has_window then <[username_key := value]> sto else sto).

Definition setPassword (value : string) (m : LoginFormStateManager) (sto : SessionStorage)
    : LoginFormStateManager * SessionStorage :=
  (mkLoginForm (lf_username m) value (lf_initialized m),
   if has_window then <[password_key := value]> sto else sto).

Definition clear (m : LoginFormStateManager) (sto : SessionStorage)
    : LoginFormStateManager * SessionStorage :=
  (mkLoginForm "" "" (lf_initialized m),
   if has_window then delete password_key (delete username_key sto) else sto).
End LoginForm.

(* ------------------------------------------------------------------ *)
(** ** The recurring-transaction engine (backend) *)

(** The frontend only declares [RecurringTransaction] and calls
    [POST /recurring-transactions/{id}/process]; the engine itself is
    backend code that is not part of the sources, so the definitions of
    this section are modelled from the spec (section 4.2). Dates are
    proleptic Gregorian. *)

Local Open Scope Z_scope.

Definition is_leap (y : Z) : bool :=
  (y mod 4 =? 0) && (negb (y mod 100 =? 0) || (y mod 400 =? 0)).

Definition days_in_month (y m : Z) : Z :=
  if m =? 2 then (if is_leap y then 29 else 28)
  else if (m =? 4) || (m =? 6) || (m =? 9) || (m =? 11) then 30
  else 31.

Definition valid_date (d : Date) : Prop :=
  1 <= year d /\ 1 <= month d <= 12 /\ 1 <= day d <= days_in_month (year d) (month d).

(** Modelled from the spec: the day after [d] (DAILY period, "+1 day"). *)
Definition next_day (d : Date) : Date :=
  if day d <? days_in_month (year d) (month d) then mkDate (year d) (month d) (day d + 1)
  else if month d <? 12 then mkDate (year d) (month d + 1) 1
  else mkDate (year d + 1) 1 1.

(** Modelled from the spec: [n] days later. *)
Definition add_days (n : nat) (d : Date) : Date := Nat.iter n next_day d.

(** Modelled from the spec: [n] calendar months later, keeping the day
    of month where valid and the last day of the month otherwise. *)
Definition add_months (n : Z) (d : Date) : Date :=
  let k := year d * 12 + (month d - 1) + n in
  let y' := k / 12 in
  let m' := k mod 12 + 1 in
  mkDate y' m' (Z.min (day d) (days_in_month y' m')).

Inductive RecurrenceFrequency := DAILY | WEEKLY | MONTHLY | QUARTERLY | YEARLY.

(** Modelled from the spec: one period of [frequency]. *)
Definition advance (f : RecurrenceFrequency) (d : Date) : Date :=
  match f with
  | DAILY => next_day d
  | WEEKLY => add_days 7 d
  | MONTHLY => add_months 1 d
  | QUARTERLY => add_months 3 d
  | YEARLY => add_months 12 d
  end.

Definition date_ltb (a b : Date) : bool :=
  (year a <? year b)
  || ((year a =? year b) && ((month a <? month b)
                             || ((month a =? month b) && (day a <? day b)))).

Record RecurringTransaction := mkRecurring {
  rt_amount : Q;
  rt_type : TransactionType;
  rt_currency : Currency;
  rt_frequency : RecurrenceFrequency;
  rt_start_date : Date;
  rt_end_date : option Date;
  rt_next_due_date : Date;
  rt_is_active : bool;
  rt_account_id : Z
}.

Inductive RecurringError := NotFoundError | InactiveTemplateError.

(** Modelled from the spec: a new template is active and first due on
    its start date. *)
Definition createRecurring (amt : Q) (ty : TransactionType) (c : Currency)
    (f : RecurrenceFrequency) (start : Date) (end_date : option Date) (acc : Z)
    : RecurringTransaction :=
  mkRecurring amt ty c f start end_date start true acc.

(** Modelled from the spec: one firing. An inactive template is rejected;
    an active one yields a transaction dated on its due date, and its
    [next_due_date] advances one period; passing [end_date] deactivates it. *)
Definition processRecurring (t : RecurringTransaction)
    : RecurringError + (RecurringTransaction * Transaction) :=
  if negb (rt_is_active t) then inl InactiveTemplateError
  else
    let txn := mkTransaction (rt_amount t) (rt_type t) (rt_next_due_date t)
                 (rt_currency t) (rt_account_id t) in
    let next := advance (rt_frequency t) (rt_next_due_date t) in
    let active := match rt_end_date t with
                  | Some e => negb (date_ltb e next)
                  | None => true
                  end in
    inr (mkRecurring (rt_amount t) (rt_type t) (rt_currency t) (rt_frequency t)
           (rt_start_date t) (rt_end_date t) next active (rt_account_id t), txn).

(** Day number of a date: days before its year, before its month, plus
    its day. *)
Definition days_before_year (y : Z) : Z :=
  let k := y - 1 in 365 * k + k / 4 - k / 100 + k / 400.

Fixpoint days_before_month_nat (y : Z) (n : nat) : Z :=
  match n with
  | O => 0
  | S n' => days_before_month_nat y n' + days_in_month y (Z.of_nat n' + 1)
  end.

Definition days_before_month (y m : Z) : Z := days_before_month_nat y (Z.to_nat (m - 1)).

Definition day_index (d : Date) : Z :=
  days_before_year (year d) + days_before_month (year d) (month d) + day d.

Definition month_index (d : Date) : Z := year d * 12 + (month d - 1).

Local Close Scope Z_scope.

(* ------------------------------------------------------------------ *)
(** ** The spec's derived balance, and concrete inputs *)

(** The balance of an account in the spec's words (section 4.1): initial
    balance plus the signed amounts of the account's transactions in its
    currency, incomes counted positively and expenses negatively. Stated
    to be compared with what the pages display. *)
Definition spec_account_balance (a : Account) (transactions : list Transaction) : Q :=
  fold_left (fun sum t =>
      if Z.eqb (t_account_id t) (acc_id a) && currency_eqb (t_currency t) (acc_currency a)
      then match t_type t with
           | INCOME => sum + t_amount t
           | EXPENSE => sum - t_amount t
           | TRANSFER => sum
           end
      else sum)
    transactions (acc_initial_balance a).

Definition eur_1 := mkAccount 1 100 EUR.
Definition eur_2 := mkAccount 2 50 EUR.
Definition usd_3 := mkAccount 3 30 USD.
Definition rates_sample : ExchangeRates :=
  <["USD" := 1]> (<["EUR" := 92 # 100]> (<["EGP" := 4890 # 100]> ∅)).
Definition income_50 := mkTransaction 50 INCOME (mkDate 2026 10 1) EUR 1.
Definition neg_accounts := [mkAccount 1 (-100) EUR; mkAccount 2 (-50) GBP].
Definition gbp_income := [mkTransaction 10 INCOME (mkDate 2026 10 5) GBP 2].
Definition monthly_sample :=
  createRecurring 10 EXPENSE EUR MONTHLY (mkDate 2024 1 31) None 1.

(* ------------------------------------------------------------------ *)
(** ** Further code of the cited files *)

(** [TransferPage]: the options of the destination select. *)
Definition availableToAccounts (accounts : list Account) (td : TransferCreateRequest)
    : list Account :=
  filter (fun a => negb (Z.eqb (acc_id a) (from_account_id td))) accounts.

(** [TransferPage]: the options of the source select. *)
Definition availableFromAccounts (accounts : list Account) (td : TransferCreateRequest)
    : list Account :=
  filter (fun a => negb (Z.eqb (acc_id a) (to_account_id td))) accounts.

(** [TransferPage]: the "Preview Transfer" button's [disabled] condition;
    [!transferData.converted_amount] holds for [undefined] and [0]. *)
Definition submitDisabled (td : TransferCreateRequest) (useCustomRate : bool) : bool :=
  Z.eqb (from_account_id td) 0 || Z.eqb (to_account_id td) 0 ||
  Qle_bool (amount td) 0 ||
  (useCustomRate && match converted_amount td with
                    | None => true
                    | Some ca => Qeq_bool ca 0 || Qle_bool ca 0
                    end).

(** [TransferPage]: the custom-rate checkbox's [onChange]; returns the new
    [useCustomRate] and [transferData]. *)
Definition onCustomRateChange (checked : bool) (td : TransferCreateRequest)
    : bool * TransferCreateRequest :=
  (checked,
   if checked then td
   else mkTransfer (from_account_id td) (to_account_id td) (amount td) None).

(** [TransferPage]: [transferMutation]'s [onSuccess]: the preview closes,
    the form is reset and [useCustomRate] is cleared. *)
Definition onTransferSuccess (st : TransferPageState) : TransferPageState * bool :=
  (mkPageState (mkTransfer 0 0 0 None) false (mutations st), false).

(** [transactionService.getMonthlyIncome] on the fetched transactions. *)
Definition getMonthlyIncome (transactions : list Transaction) (now : Now) : Q :=
  fold_left (fun total t => total + t_amount t)
    (filter (fun t => in_month now t && type_eqb (t_type t) INCOME) transactions) 0.

(** [transactionService.getMonthlyExpenses] on the fetched transactions. *)
Definition getMonthlyExpenses (transactions : list Transaction) (now : Now) : Q :=
  fold_left (fun total t => total + Qabs (t_amount t))
    (filter (fun t => in_month now t && type_eqb (t_type t) EXPENSE) transactions) 0.

(** [AnalyticsPage]: [netIncome]. *)
Definition netIncome (v : AnalyticsView) : Q := av_totalIncome v - av_totalExpenses v.

(** [AnalyticsPage]: [savingsRate]. *)
Definition savingsRate (v : AnalyticsView) : Q :=
  if Qgtb (av_totalIncome v) 0 then netIncome v / av_totalIncome v * 100 else 0.

(** models/Category.ts *)
Inductive CategoryType := CategoryINCOME | CategoryEXPENSE.

#[global] Instance CategoryType_eq_dec : EqDecision CategoryType.
Proof. solve_decision. Defined.

Record Category := mkCategory {
  cat_id : Z;
  cat_name : string;
  cat_type : CategoryType
}.

(** [Dashboard]: [expenseData], the spending pie. A transaction comes with
    its optional [category_id]; [undefined] equals no category id. *)
Definition expenseData (categories : list Category)
    (transactions : list (Transaction * option Z)) (now : Now) : list (string * Q) :=
  let monthlyTransactions := List.filter (fun tc => in_month now (fst tc)) transactions in
  firstn 5
    (List.filter (fun item => Qgtb (snd item) 0)
       (map (fun cat =>
           let categoryTransactions :=
             List.filter (fun tc => match snd tc with
                               | Some cid => Z.eqb cid (cat_id cat)
                               | None => false
                               end) monthlyTransactions in
           (cat_name cat, sum_amounts (map fst categoryTransactions)))
          (List.filter (fun cat => bool_decide (cat_type cat = CategoryEXPENSE)) categories))).

(** The sum of the initial balances of the accounts in currency [c]. *)
Definition currency_sum (accounts : list Account) (c : Currency) : Q :=
  fold_left (fun s a => if currency_eqb (acc_currency a) c then s + acc_initial_balance a else s)
    accounts 0.

(* ================================================================== *)
(** * Calendar lemmas *)

Module Calendar.
Local Open Scope Z_scope.

Lemma days_in_month_bounds (y m : Z) : 28 <= days_in_month y m <= 31.
Proof.
  unfold days_in_month.
  destruct (m =? 2); [destruct (is_leap y); lia|].
  destruct (_ || _); lia.
Qed.

Lemma div_step (a y : Z) :
  0 < a -> y / a = (y - 1) / a + (if y mod a =? 0 then 1 else 0).
Proof.
  intros Ha.
  pose proof (Z.div_mod y a ltac:(lia)) as E.
  pose proof (Z.mod_pos_bound y a Ha).
  destruct (Z.eqb_spec (y mod a) 0) as [H0|H0].
  - assert ((y - 1) / a = y / a - 1) as ->; [|lia].
    symmetry. apply Z.div_unique with (r := a - 1); [lia|].
    rewrite H0 in E. rewrite E at 1. ring.
  - assert ((y - 1) / a = y / a) as ->; [|lia].
    symmetry. apply Z.div_unique with (r := y mod a - 1); [lia|].
    rewrite E at 1. ring.
Qed.

Lemma mod_multiple (y a b : Z) :
  0 < a -> 0 < b -> y mod (a * b) = 0 -> y mod a = 0.
Proof.
  intros Ha Hb H. apply Z.mod_divide; [lia|].
  apply Z.mod_divide in H; [|lia].
  destruct H as [q Hq]. exists (q * b). lia.
Qed.

Lemma days_before_year_succ (y : Z) :
  1 <= y ->
  days_before_year (y + 1) = days_before_year y + 365 + (if is_leap y then 1 else 0).
Proof.
  intros Hy. unfold days_before_year, is_leap.
  replace (y + 1 - 1) with y by lia.
  rewrite (div_step 4 y), (div_step 100 y), (div_step 400 y) by lia.
  pose proof (mod_multiple y 4 25 ltac:(lia) ltac:(lia)) as H4.
  pose proof (mod_multiple y 100 4 ltac:(lia) ltac:(lia)) as H100.
  change (4 * 25) with 100 in H4. change (100 * 4) with 400 in H100.
  destruct (Z.eqb_spec (y mod 4) 0), (Z.eqb_spec (y mod 100) 0),
           (Z.eqb_spec (y mod 400) 0); simpl; lia.
Qed.

Lemma days_before_month_succ (y m : Z) :
  1 <= m ->
  days_before_month y (m + 1) = days_before_month y m + days_in_month y m.
Proof.
  intros Hm. unfold days_before_month.
  replace (Z.to_nat (m + 1 - 1)) with (S (Z.to_nat (m - 1))) by lia.
  simpl. f_equal. f_equal. lia.
Qed.

Lemma days_before_month_1 (y : Z) : days_before_month y 1 = 0.
Proof. reflexivity. Qed.

Lemma days_in_year (y : Z) :
  days_before_month y 12 + days_in_month y 12 = 365 + (if is_leap y then 1 else 0).
Proof.
  unfold days_before_month. simpl.
  unfold days_in_month. simpl. destruct (is_leap y); reflexivity.
Qed.

Lemma next_day_valid (d : Date) : valid_date d -> valid_date (next_day d).
Proof.
  destruct d as [y m dd]. unfold valid_date, next_day. simpl. intros (Hy & Hm & Hd).
  destruct (Z.ltb_spec dd (days_in_month y m)); simpl; [lia|].
  pose proof (days_in_month_bounds y (m + 1)).
  pose proof (days_in_month_bounds (y + 1) 1).
  destruct (Z.ltb_spec m 12); simpl; lia.
Qed.

Lemma next_day_index (d : Date) :
  valid_date d -> day_index (next_day d) = day_index d + 1.
Proof.
  destruct d as [y m dd]. unfold valid_date, next_day, day_index. simpl.
  intros (Hy & Hm & Hd).
  destruct (Z.ltb_spec dd (days_in_month y m)); simpl; [lia|].
  destruct (Z.ltb_spec m 12); simpl.
  - rewrite days_before_month_succ by lia. lia.
  - assert (m = 12) by lia. subst m.
    rewrite days_before_year_succ by lia.
    rewrite days_before_month_1.
    pose proof (days_in_year y). lia.
Qed.

Lemma add_days_valid_index (n : nat) (d : Date) :
  valid_date d ->
  valid_date (add_days n d) /\ day_index (add_days n d) = day_index d + Z.of_nat n.
Proof.
  intros Hd. induction n as [|n IH]; simpl; [split; [exact Hd | lia]|].
  destruct IH as [Hv Hi]. split.
  - now apply next_day_valid.
  - rewrite next_day_index by exact Hv. lia.
Qed.

Lemma add_months_index (n : Z) (d : Date) :
  month_index (add_months n d) = month_index d + n.
Proof.
  unfold add_months, month_index. simpl.
  set (k := year d * 12 + (month d - 1) + n).
  pose proof (Z.div_mod k 12 ltac:(lia)). lia.
Qed.

Lemma add_months_day (n : Z) (d : Date) :
  day (add_months n d) = Z.min (day d) (days_in_month (year (add_months n d)) (month (add_months n d))).
Proof. reflexivity. Qed.

Lemma add_months_valid (n : Z) (d : Date) :
  valid_date d -> 0 <= n -> valid_date (add_months n d).
Proof.
  destruct d as [y m dd]. unfold valid_date, add_months. simpl. intros (Hy & Hm & Hd) Hn.
  set (k := y * 12 + (m - 1) + n).
  pose proof (Z.mod_pos_bound k 12 ltac:(lia)).
  pose proof (days_in_month_bounds (k / 12) (k mod 12 + 1)).
  assert (1 <= k / 12) by (apply Z.div_le_lower_bound; lia).
  repeat split; lia.
Qed.

Lemma add_months_12 (d : Date) :
  1 <= month d <= 12 ->
  year (add_months 12 d) = year d + 1 /\ month (add_months 12 d) = month d.
Proof.
  intros Hm.
  pose proof (add_months_index 12 d) as Hi. unfold month_index in Hi.
  assert (1 <= month (add_months 12 d) <= 12).
  { unfold add_months. simpl.
    pose proof (Z.mod_pos_bound (year d * 12 + (month d - 1) + 12) 12 ltac:(lia)). lia. }
  lia.
Qed.

End Calendar.

(* ================================================================== *)
(** * Recurring engine *)

Module Recurring.
Local Open Scope Z_scope.

(** C8: firing an active template whose due date is a valid date
    succeeds and moves [next_due_date] by exactly one period of its
    frequency: DAILY one day later, WEEKLY seven days later (counted as
    day numbers), MONTHLY one calendar month, QUARTERLY three, YEARLY
    twelve (same month next year), keeping the day of month where that
    month has it and the month's last day otherwise. In particular a
    MONTHLY template started on 2024-01-31 is next due on 2024-02-29
    after its first firing. *)
Theorem process_advances_one_period (t : RecurringTransaction) :
  rt_is_active t = true ->
  valid_date (rt_next_due_date t) ->
  (exists t' txn, processRecurring t = inr (t', txn) /\
     valid_date (rt_next_due_date t') /\
     let d := rt_next_due_date t in
     let d' := rt_next_due_date t' in
     match rt_frequency t with
     | DAILY => day_index d' = day_index d + 1
     | WEEKLY => day_index d' = day_index d + 7
     | MONTHLY => month_index d' = month_index d + 1 /\
                  day d' = Z.min (day d) (days_in_month (year d') (month d'))
     | QUARTERLY => month_index d' = month_index d + 3 /\
                    day d' = Z.min (day d) (days_in_month (year d') (month d'))
     | YEARLY => year d' = year d + 1 /\ month d' = month d /\
                 day d' = Z.min (day d) (days_in_month (year d') (month d'))
     end) /\
  (forall txn0 a ty c acc,
     processRecurring (createRecurring a ty c MONTHLY (mkDate 2024 1 31) None acc) = inr txn0 ->
     rt_next_due_date (fst txn0) = mkDate 2024 2 29).
Proof.
  intros Hact Hv. split.
  - unfold processRecurring. rewrite Hact. simpl.
    eexists _, _. split; [reflexivity|]. simpl.
    destruct (rt_frequency t); simpl.
    + split; [now apply Calendar.next_day_valid | now apply Calendar.next_day_index].
    + apply (Calendar.add_days_valid_index 7); exact Hv.
    + split; [apply Calendar.add_months_valid; [exact Hv | lia]|].
      split; [apply Calendar.add_months_index | reflexivity].
    + split; [apply Calendar.add_months_valid; [exact Hv | lia]|].
      split; [apply Calendar.add_months_index | reflexivity].
    + split; [apply Calendar.add_months_valid; [exact Hv | lia]|].
      destruct Hv as (_ & Hm & _).
      destruct (Calendar.add_months_12 (rt_next_due_date t) Hm) as [Hy Hm'].
      split; [exact Hy | split; [exact Hm' | reflexivity]].
  - intros txn0 a ty c acc H. vm_compute in H. inversion H. reflexivity.
Qed.

End Recurring.

(* ================================================================== *)
(** * Transfer preview *)

Module Transfer.

Lemma amount_not_le (a : Q) : 0 < a -> Qle_bool a 0 = false.
Proof.
  intros H. destruct (Qle_bool a 0) eqn:E; [|reflexivity].
  apply Qle_bool_iff in E. exfalso. apply (Qlt_not_le _ _ H E).
Qed.

Lemma currency_eqb_false (a b : Currency) : a <> b -> currency_eqb a b = false.
Proof. intros H. unfold currency_eqb. now apply bool_decide_false. Qed.

Lemma currency_eqb_true (a b : Currency) : a = b -> currency_eqb a b = true.
Proof. intros H. unfold currency_eqb. now apply bool_decide_true. Qed.

Lemma currency_code_inj (a b : Currency) : currency_code a = currency_code b -> a = b.
Proof. destruct a, b; simpl; congruence. Qed.

Lemma custom_amount_pos (ca : Q) : 0 < ca -> custom_amount true (Some ca) = Some ca.
Proof.
  intros H. unfold custom_amount, Qgtb. simpl.
  destruct (Qeq_bool ca 0) eqn:E.
  - apply Qeq_bool_iff in E. rewrite E in H. discriminate.
  - rewrite (amount_not_le ca H). reflexivity.
Qed.

Ltac open_preview Hf Ht Ha :=
  unfold getConversionPreview; rewrite Hf, Ht, (amount_not_le _ Ha).

(** C1: a cross-currency transfer with no converted amount supplied
    reads the rate-to-USD of both currencies from the table (a missing
    or zero entry counting as 1), converts amount to USD by dividing by
    the source rate and to the destination currency by multiplying by
    the destination rate, and reports the converted amount rounded to 2
    decimals and the rate [converted / amount] rounded to 4 decimals. *)
Theorem computed_rate_preview (accounts : list Account) (td : TransferCreateRequest)
    (useCustomRate : bool) (rates : ExchangeRates) (fromA toA : Account) :
  find_account accounts (from_account_id td) = Some fromA ->
  find_account accounts (to_account_id td) = Some toA ->
  0 < amount td ->
  acc_currency fromA <> acc_currency toA ->
  converted_amount td = None ->
  let fromRate := or_one (rates !! currency_code (acc_currency fromA)) in
  let toRate := or_one (rates !! currency_code (acc_currency toA)) in
  let usdAmount := amount td / fromRate in
  let convertedAmount := usdAmount * toRate in
  getConversionPreview accounts td useCustomRate rates =
    Some (mkPreview (amount td) (round2 convertedAmount)
                    (round4 (convertedAmount / amount td)) false false).
Proof.
  intros Hf Ht Ha Hc Hca. open_preview Hf Ht Ha.
  rewrite (currency_eqb_false _ _ Hc), Hca. reflexivity.
Qed.

(** C6: for a transfer between two accounts of the same currency the
    preview has rate 1 and converted amount equal to the amount, whatever
    the exchange-rate table holds (the table is not consulted). *)
Theorem same_currency_preview (accounts : list Account) (td : TransferCreateRequest)
    (useCustomRate : bool) (fromA toA : Account) :
  find_account accounts (from_account_id td) = Some fromA ->
  find_account accounts (to_account_id td) = Some toA ->
  0 < amount td ->
  acc_currency fromA = acc_currency toA ->
  forall rates : ExchangeRates,
    getConversionPreview accounts td useCustomRate rates =
      Some (mkPreview (amount td) (amount td) 1 true false).
Proof.
  intros Hf Ht Ha Hc rates. open_preview Hf Ht Ha.
  rewrite (currency_eqb_true _ _ Hc). reflexivity.
Qed.

(** C5 (amended): between two found accounts and for a positive
    amount, a cross-currency transfer with the custom-rate option on and
    a converted amount [ca > 0] has preview rate [round4 (ca / amount)]
    and converted amount [ca], whatever the exchange-rate table holds;
    a same-currency transfer gets rate 1 and converted amount equal to
    the amount, whatever the option, the converted amount supplied and
    the table. *)
Theorem custom_rate_preview (accounts : list Account) (td : TransferCreateRequest)
    (fromA toA : Account) :
  find_account accounts (from_account_id td) = Some fromA ->
  find_account accounts (to_account_id td) = Some toA ->
  0 < amount td ->
  (forall ca : Q,
     acc_currency fromA <> acc_currency toA ->
     converted_amount td = Some ca ->
     0 < ca ->
     forall rates : ExchangeRates,
       getConversionPreview accounts td true rates =
         Some (mkPreview (amount td) ca (round4 (ca / amount td)) false true)) /\
  (acc_currency fromA = acc_currency toA ->
   forall (useCustomRate : bool) (rates : ExchangeRates),
     getConversionPreview accounts td useCustomRate rates =
       Some (mkPreview (amount td) (amount td) 1 true false)).
Proof.
  intros Hf Ht Ha. split.
  - intros ca Hc Hca Hpos rates. open_preview Hf Ht Ha.
    rewrite (currency_eqb_false _ _ Hc), Hca, (custom_amount_pos _ Hpos). reflexivity.
  - intros Hc useCustomRate rates. open_preview Hf Ht Ha.
    rewrite (currency_eqb_true _ _ Hc). reflexivity.
Qed.

(** C5 fails for same-currency transfers: with the custom-rate option on
    and converted amount 200 for an amount of 100 between two EUR
    accounts, the preview's rate is 1, not [round4 (200 / 100) = 2]. *)
Lemma custom_rate_same_currency_cex :
  option_map exchangeRate
    (getConversionPreview [eur_1; eur_2] (mkTransfer 1 2 100 (Some 200)) true ∅) = Some 1 /\
  ~ (1 == round4 (200 / 100)).
Proof. split; [reflexivity | vm_compute; discriminate]. Qed.

(** C9: in the computed-rate case a currency missing from the table is
    treated as rate 1: the preview is the one obtained with that currency
    mapped to 1, and a preview is produced. *)
Theorem missing_rate_defaults_to_one (accounts : list Account) (td : TransferCreateRequest)
    (useCustomRate : bool) (rates : ExchangeRates) (fromA toA : Account) :
  find_account accounts (from_account_id td) = Some fromA ->
  find_account accounts (to_account_id td) = Some toA ->
  0 < amount td ->
  acc_currency fromA <> acc_currency toA ->
  custom_amount useCustomRate (converted_amount td) = None ->
  (rates !! currency_code (acc_currency fromA) = None ->
     getConversionPreview accounts td useCustomRate rates =
     getConversionPreview accounts td useCustomRate
       (<[currency_code (acc_currency fromA) := 1]> rates)) /\
  (rates !! currency_code (acc_currency toA) = None ->
     getConversionPreview accounts td useCustomRate rates =
     getConversionPreview accounts td useCustomRate
       (<[currency_code (acc_currency toA) := 1]> rates)) /\
  exists p, getConversionPreview accounts td useCustomRate rates = Some p.
Proof.
  intros Hf Ht Ha Hc Hno.
  assert (Hcode : currency_code (acc_currency fromA) <> currency_code (acc_currency toA))
    by (intros E; apply Hc, currency_code_inj, E).
  split; [|split].
  - intros Hmiss. open_preview Hf Ht Ha.
    rewrite (currency_eqb_false _ _ Hc), Hno.
    rewrite lookup_insert_eq, lookup_insert_ne by exact Hcode.
    rewrite Hmiss. reflexivity.
  - intros Hmiss. open_preview Hf Ht Ha.
    rewrite (currency_eqb_false _ _ Hc), Hno.
    rewrite lookup_insert_eq, lookup_insert_ne by (intros E; apply Hcode; symmetry; exact E).
    rewrite Hmiss. reflexivity.
  - open_preview Hf Ht Ha. rewrite (currency_eqb_false _ _ Hc), Hno. eexists. reflexivity.
Qed.

End Transfer.

(* ================================================================== *)
(** * Analytics and dashboard aggregation *)

Module Aggregation.

(** C2 (amended): the Analytics page reports each account's balance as
    the [initial_balance] field it received, and its total balance is
    [calculateTotalBalance] of the accounts alone: the transactions it
    loads change neither. *)
Theorem analytics_balances_from_initial_balance
    (accounts : list Account) (transactions : list Transaction) (now : Now) :
  av_breakdown (analyticsView accounts transactions now) =
    map (fun a => (acc_id a, acc_initial_balance a, acc_currency a)) accounts /\
  av_totalBalance (analyticsView accounts transactions now) = calculateTotalBalance accounts.
Proof. split; reflexivity. Qed.

(** C2 fails: an EUR account with initial balance 100 and one INCOME of
    50 EUR on it is shown with balance 100 (and a total of 100), while
    the spec's derived balance is 150. *)
Lemma analytics_balance_cex :
  av_breakdown (analyticsView [eur_1] [income_50] (mkNow 10 2026)) = [(1%Z, 100, EUR)] /\
  tb_amount (av_totalBalance (analyticsView [eur_1] [income_50] (mkNow 10 2026))) == 100 /\
  spec_account_balance eur_1 [income_50] == 150.
Proof. split; [reflexivity | split; reflexivity]. Qed.

(** C3: for the accounts [{EUR,100},{EUR,50},{USD,30}] the total balance
    is 150 EUR, the sum over the EUR accounts only. *)
Theorem dominant_currency_example :
  calculateTotalBalance [mkAccount 1 100 EUR; mkAccount 2 50 EUR; mkAccount 3 30 USD] =
    mkTotal 150 EUR.
Proof. vm_compute. reflexivity. Qed.

(** C4: with two accounts of aggregate balances -100 EUR and -50 GBP the
    largest aggregate is GBP's, yet the dashboard's and the analytics
    page's headline currency is USD (the seed of the dominant-currency
    search) and a 10 GBP income of the current month is not counted. *)
Theorem nonpositive_totals_pick_usd :
  calculateTotalBalance neg_accounts = mkTotal 0 USD /\
  dashboardMonthly neg_accounts gbp_income (mkNow 10 2026) = (0, 0) /\
  av_totalIncome (analyticsView neg_accounts gbp_income (mkNow 10 2026)) = 0.
Proof. vm_compute. split; [reflexivity | split; reflexivity]. Qed.

End Aggregation.

(* ================================================================== *)
(** * Transfer submission *)

Module Submit.

(** C7: submitting a transfer whose source and destination accounts are
    the same raises the validation alert and leaves the page state as it
    was: no preview is opened and no transfer request is sent. *)
Theorem same_account_rejected (st : TransferPageState) :
  from_account_id (transferData st) = to_account_id (transferData st) ->
  handleSubmit st = (st, Alerted same_accounts_msg) /\
  mutations (fst (handleSubmit st)) = mutations st.
Proof.
  intros H. unfold handleSubmit. rewrite H, Z.eqb_refl. split; reflexivity.
Qed.

End Submit.

(* ================================================================== *)
(** * Login form state *)

Module LoginFormState.

(** C10: after [setUsername v] (resp. [setPassword v]) the getter
    returns [v] and, in a browser, [sessionStorage] holds [v] under
    [login_form_username] (resp. [login_form_password]); after [clear]
    both getters return the empty string and, in a browser, both keys
    are gone. *)
Theorem set_get_clear (has_window : bool) (m : LoginFormStateManager)
    (sto : SessionStorage) (v : string) :
  has_window = true ->
  (let '(m1, sto1) := setUsername has_window v m sto in
   fst (getUsername has_window m1 sto1) = v /\ sto1 !! username_key = Some v) /\
  (let '(m1, sto1) := setPassword has_window v m sto in
   fst (getPassword has_window m1 sto1) = v /\ sto1 !! password_key = Some v) /\
  (let '(m1, sto1) := clear has_window m sto in
   fst (getUsername has_window m1 sto1) = "" /\ fst (getPassword has_window m1 sto1) = "" /\
   sto1 !! username_key = None /\ sto1 !! password_key = None).
Proof.
  intros ->. unfold setUsername, setPassword, clear, getUsername, getPassword, loadFromStorage.
  simpl. repeat split.
  - destruct (lf_initialized m); simpl; [reflexivity|].
    rewrite lookup_insert_eq. reflexivity.
  - apply lookup_insert_eq.
  - destruct (lf_initialized m); simpl; [reflexivity|].
    rewrite lookup_insert_eq. reflexivity.
  - apply lookup_insert_eq.
  - destruct (lf_initialized m); simpl; [reflexivity|].
    rewrite lookup_delete_ne by discriminate. rewrite lookup_delete_eq. reflexivity.
  - destruct (lf_initialized m); simpl; [reflexivity|].
    rewrite lookup_delete_eq. reflexivity.
  - rewrite lookup_delete_ne by discriminate. apply lookup_delete_eq.
  - apply lookup_delete_eq.
Qed.

End LoginFormState.

(* ================================================================== *)
(** * Per-currency totals and the dominant currency *)

Module Totals.

Lemma currency_eqb_spec (a b : Currency) : currency_eqb a b = true <-> a = b.
Proof. unfold currency_eqb. apply bool_decide_eq_true. Qed.

Ltac case_cur a b :=
  let E := fresh "E" in
  let Hne := fresh "Hne" in
  destruct (currency_eqb a b) eqn:E;
  [apply currency_eqb_spec in E; subst|
   assert (Hne : a <> b) by (intros ?; subst; rewrite (proj2 (currency_eqb_spec _ _) eq_refl) in E;
                        discriminate)].

Lemma get_set (acc : list (Currency * Q)) (c c' : Currency) (v : Q) :
  get_total (set_total acc c v) c' = if currency_eqb c c' then Some v else get_total acc c'.
Proof.
  induction acc as [|[c0 v0] rest IH]; simpl; [reflexivity|].
  case_cur c0 c; simpl.
  - destruct (currency_eqb c c'); reflexivity.
  - rewrite IH. case_cur c c'; [|reflexivity].
    case_cur c0 c'; [congruence | reflexivity].
Qed.

Lemma get_in (acc : list (Currency * Q)) (c : Currency) (v : Q) :
  get_total acc c = Some v -> In (c, v) acc.
Proof.
  induction acc as [|[c0 v0] rest IH]; simpl; [discriminate|].
  case_cur c0 c; [intros H; inversion H; subst; now left|].
  intros H. right. now apply IH.
Qed.

Lemma get_none_notin (acc : list (Currency * Q)) (c : Currency) :
  get_total acc c = None -> ~ In c (map fst acc).
Proof.
  induction acc as [|[c0 v0] rest IH]; simpl; [auto|].
  case_cur c0 c; [discriminate|].
  intros H [Eq|Hin]; [congruence | exact (IH H Hin)].
Qed.

Lemma keys_set_found (acc : list (Currency * Q)) (c : Currency) (v w : Q) :
  get_total acc c = Some w -> map fst (set_total acc c v) = map fst acc.
Proof.
  induction acc as [|[c0 v0] rest IH]; simpl; [discriminate|].
  case_cur c0 c; simpl; [reflexivity|].
  intros H. now rewrite IH.
Qed.

Lemma keys_set_missing (acc : list (Currency * Q)) (c : Currency) (v : Q) :
  get_total acc c = None -> map fst (set_total acc c v) = map fst acc ++ [c].
Proof.
  induction acc as [|[c0 v0] rest IH]; simpl; [reflexivity|].
  case_cur c0 c; simpl; [discriminate|].
  intros H. now rewrite IH.
Qed.

Lemma nodup_set (acc : list (Currency * Q)) (c : Currency) (v : Q) :
  NoDup (map fst acc) -> NoDup (map fst (set_total acc c v)).
Proof.
  intros Hnd. destruct (get_total acc c) as [w|] eqn:G.
  - now rewrite (keys_set_found acc c v w G).
  - rewrite (keys_set_missing acc c v G).
    apply NoDup_app. split; [exact Hnd|]. split.
    + intros x Hx Hx'. apply list_elem_of_singleton in Hx'. subst x.
      apply (get_none_notin acc c G). now apply list_elem_of_In.
    + apply NoDup_singleton.
Qed.

Lemma in_get (acc : list (Currency * Q)) (c : Currency) (v : Q) :
  NoDup (map fst acc) -> In (c, v) acc -> get_total acc c = Some v.
Proof.
  induction acc as [|[c0 v0] rest IH]; simpl; [tauto|].
  intros Hnd Hin. apply NoDup_cons in Hnd as [Hnot Hnd].
  destruct Hin as [E|Hin].
  - inversion E; subst. rewrite (proj2 (currency_eqb_spec _ _) eq_refl). reflexivity.
  - case_cur c0 c.
    + exfalso. apply Hnot. apply list_elem_of_In.
      apply (in_map fst) in Hin. exact Hin.
    + now apply IH.
Qed.

Lemma currencyTotals_fold (rest processed : list Account) (acc : list (Currency * Q)) :
  NoDup (map fst acc) ->
  (forall c, or_zero (get_total acc c) == currency_sum processed c) ->
  let acc' := fold_left (fun acc account =>
      set_total acc (acc_currency account)
        (or_zero (get_total acc (acc_currency account)) + acc_initial_balance account))
      rest acc in
  NoDup (map fst acc') /\
  forall c, or_zero (get_total acc' c) == currency_sum (processed ++ rest) c.
Proof.
  revert processed acc. induction rest as [|a rest IH]; intros processed acc Hnd Hinv.
  - simpl. rewrite app_nil_r. split; assumption.
  - simpl. replace (processed ++ a :: rest) with ((processed ++ [a]) ++ rest)
      by now rewrite <- app_assoc.
    apply IH; [now apply nodup_set|].
    intros c. rewrite get_set. unfold currency_sum. rewrite fold_left_app. simpl.
    fold (currency_sum processed c).
    case_cur (acc_currency a) c; simpl.
    + rewrite Hinv. reflexivity.
    + apply Hinv.
Qed.

Lemma currencyTotals_spec (accounts : list Account) :
  NoDup (map fst (currencyTotals accounts)) /\
  forall c, or_zero (get_total (currencyTotals accounts) c) == currency_sum accounts c.
Proof.
  apply (currencyTotals_fold accounts [] []); [constructor | reflexivity].
Qed.

Lemma totals_values (accounts : list Account) :
  NoDup (map fst (currencyTotals accounts)) /\
  (forall c v, In (c, v) (currencyTotals accounts) -> v == currency_sum accounts c) /\
  (forall c, get_total (currencyTotals accounts) c = None -> currency_sum accounts c == 0).
Proof.
  destruct (currencyTotals_spec accounts) as [Hnd Hs]. split; [exact Hnd|]. split.
  - intros c v Hin. rewrite <- Hs. now rewrite (in_get _ _ _ Hnd Hin).
  - intros c G. rewrite <- Hs, G. reflexivity.
Qed.

Lemma keys_first_appearance (accounts : list Account) :
  map fst (currencyTotals accounts) = reverse (remove_dups (reverse (map acc_currency accounts))).
Proof.
  induction accounts as [|a l IH] using rev_ind; [reflexivity|].
  rewrite List.map_app. cbn [map]. rewrite reverse_snoc. cbn [remove_dups].
  unfold currencyTotals. rewrite fold_left_app. cbn [fold_left]. fold (currencyTotals l).
  destruct (get_total (currencyTotals l) (acc_currency a)) as [w|] eqn:G.
  - rewrite (keys_set_found _ _ _ _ G).
    destruct (decide_rel _ _ _) as [_|Hx]; [exact IH|]. exfalso. apply Hx.
    apply (elem_of_remove_dups (reverse (map acc_currency l))).
    apply (elem_of_reverse _ (remove_dups (reverse (map acc_currency l)))).
    rewrite <- IH. apply list_elem_of_In. apply get_in in G.
    apply (in_map fst) in G. exact G.
  - rewrite (keys_set_missing _ _ _ G).
    destruct (decide_rel _ _ _) as [Hin|_]; [|rewrite reverse_cons, IH; reflexivity].
    exfalso. apply (get_none_notin _ _ G). rewrite IH. apply list_elem_of_In.
    apply elem_of_reverse, elem_of_remove_dups. exact Hin.
Qed.

(** The keys of the [currencyTotals] object built by
    [calculateTotalBalance] are the account currencies, each once, in
    order of first appearance; each entry's value is the sum of the
    initial balances of the accounts in that currency, and a currency
    without an entry has no account. *)
Theorem currencyTotals_entries (accounts : list Account) :
  map fst (currencyTotals accounts) =
    reverse (remove_dups (reverse (map acc_currency accounts))) /\
  NoDup (map fst (currencyTotals accounts)) /\
  (forall c v, In (c, v) (currencyTotals accounts) -> v == currency_sum accounts c) /\
  (forall c, get_total (currencyTotals accounts) c = None ->
     ~ In c (map acc_currency accounts) /\ currency_sum accounts c == 0).
Proof.
  destruct (totals_values accounts) as (Hnd & Hin & Hnone).
  split; [apply keys_first_appearance|]. split; [exact Hnd|]. split; [exact Hin|].
  intros c G. split; [|exact (Hnone c G)].
  intros Hin'. apply (get_none_notin _ _ G). rewrite keys_first_appearance.
  apply list_elem_of_In, elem_of_reverse, elem_of_remove_dups, elem_of_reverse.
  now apply list_elem_of_In.
Qed.

Lemma dominant_fold (l : list (Currency * Q)) (m : TotalBalance) :
  let r := fold_left (fun max '(currency, amt) =>
      if Qgtb amt (tb_amount max) then mkTotal amt currency else max) l m in
  tb_amount m <= tb_amount r /\
  (forall c v, In (c, v) l -> v <= tb_amount r) /\
  (r = m \/ In (tb_currency r, tb_amount r) l).
Proof.
  revert m. induction l as [|[c v] l IH]; intros m; simpl.
  - split; [apply Qle_refl | split; [tauto | now left]].
  - destruct (Qgtb v (tb_amount m)) eqn:E; simpl.
    2:{ unfold Qgtb in E. apply negb_false_iff, Qle_bool_iff in E.
      destruct (IH m) as (H1 & H2 & H3). split; [exact H1|]. split.
      * intros c' v' [Hh|Ht]; [inversion Hh; subst; exact (Qle_trans _ _ _ E H1)|].
        exact (H2 c' v' Ht).
      * destruct H3 as [H3|H3]; [now left | right; now right]. }
    + assert (Hlt : tb_amount m < v).
      { apply Qnot_le_lt. intros Hle. apply Qle_bool_iff in Hle. unfold Qgtb in E.
        rewrite Hle in E. discriminate. }
      destruct (IH (mkTotal v c)) as (H1 & H2 & H3). simpl in H1. split.
      * apply Qlt_le_weak. exact (Qlt_le_trans _ _ _ Hlt H1).
      * split.
        -- intros c' v' [Hh|Ht]; [inversion Hh; subst; exact H1|]. exact (H2 c' v' Ht).
        -- right. destruct H3 as [H3|H3]; [rewrite H3; now left | now right].
Qed.

(** When the accounts are of more than one currency, the headline total
    of [calculateTotalBalance] is at least the sum of the initial
    balances of every currency (so at least 0), and it is either the
    seed [0 USD] or exactly the sum over the accounts of the currency it
    reports. *)
Theorem mixed_total_is_max (accounts : list Account) (a b : Account) :
  In a accounts -> In b accounts -> acc_currency a <> acc_currency b ->
  let r := calculateTotalBalance accounts in
  (forall c, currency_sum accounts c <= tb_amount r) /\
  (r = mkTotal 0 USD \/ tb_amount r == currency_sum accounts (tb_currency r)).
Proof.
  intros Ha Hb Hab.
  assert (Hdom : calculateTotalBalance accounts = dominantCurrency (currencyTotals accounts)).
  { destruct accounts as [|first rest]; [destruct Ha|]. unfold calculateTotalBalance.
    destruct (forallb _ _) eqn:Hall; [|reflexivity]. exfalso.
    rewrite forallb_forall in Hall.
    apply Hab. pose proof (Hall a Ha) as Ea. pose proof (Hall b Hb) as Eb.
    apply currency_eqb_spec in Ea, Eb. congruence. }
  simpl. rewrite Hdom.
  destruct (totals_values accounts) as (Hnd & Hin & Hnone).
  destruct (dominant_fold (currencyTotals accounts) (mkTotal 0 USD)) as (H0 & Hmax & Hor).
  fold (dominantCurrency (currencyTotals accounts)) in H0, Hmax, Hor.
  simpl in H0. split.
  - intros c. destruct (get_total (currencyTotals accounts) c) as [v|] eqn:G.
    + rewrite <- (Hin c v (get_in _ _ _ G)). apply (Hmax c v (get_in _ _ _ G)).
    + rewrite (Hnone c G). exact H0.
  - destruct Hor as [E|E]; [now left | right].
    exact (Hin _ _ E).
Qed.

End Totals.

(* ================================================================== *)
(** * The transfer page beyond the preview's three cases *)

Module TransferPage.

Lemma filter_bool {A : Type} (f : A -> bool) (l : list A) : filter f l = List.filter f l.
Proof.
  induction l as [|x l IH]; [reflexivity|]. simpl.
  rewrite filter_cons. destruct (f x); simpl; now rewrite IH.
Qed.

(** A preview exists only for a positive amount between two accounts
    that are both found; its "You send" figure is the amount entered. *)
Theorem preview_requires_positive_amount_and_accounts (accounts : list Account)
    (td : TransferCreateRequest) (useCustomRate : bool) (rates : ExchangeRates)
    (p : ConversionPreview) :
  getConversionPreview accounts td useCustomRate rates = Some p ->
  0 < amount td /\ originalAmount p = amount td /\
  find_account accounts (from_account_id td) <> None /\
  find_account accounts (to_account_id td) <> None.
Proof.
  unfold getConversionPreview.
  destruct (find_account accounts (from_account_id td)) as [fromA|]; [|discriminate].
  destruct (find_account accounts (to_account_id td)) as [toA|]; [|discriminate].
  destruct (Qle_bool (amount td) 0) eqn:Hle; [discriminate|].
  assert (0 < amount td).
  { apply Qnot_le_lt. intros H. apply Qle_bool_iff in H. congruence. }
  destruct (currency_eqb _ _);
    [|destruct (custom_amount useCustomRate (converted_amount td))];
    intros E; inversion E; subst; simpl; repeat split; congruence.
Qed.

(** When the "Preview Transfer" button is enabled with the custom-rate
    option on, a cross-currency preview always uses the custom rate:
    the converted amount entered is positive and the rate is
    [round4 (converted / amount)]. *)
Theorem enabled_custom_submit_uses_custom_rate (accounts : list Account)
    (td : TransferCreateRequest) (rates : ExchangeRates) (fromA toA : Account) :
  submitDisabled td true = false ->
  find_account accounts (from_account_id td) = Some fromA ->
  find_account accounts (to_account_id td) = Some toA ->
  acc_currency fromA <> acc_currency toA ->
  exists ca, converted_amount td = Some ca /\ 0 < ca /\
    getConversionPreview accounts td true rates =
      Some (mkPreview (amount td) ca (round4 (ca / amount td)) false true).
Proof.
  unfold submitDisabled. intros Hd Hf Ht Hc.
  apply orb_false_iff in Hd as [Hd Hcust]. apply orb_false_iff in Hd as [Hd Hamt].
  assert (Ha : 0 < amount td).
  { apply Qnot_le_lt. intros H. apply Qle_bool_iff in H. congruence. }
  destruct (converted_amount td) as [ca|] eqn:Eca; simpl in Hcust; [|discriminate].
  apply orb_false_iff in Hcust as [_ Hle].
  assert (Hpos : 0 < ca).
  { apply Qnot_le_lt. intros H. apply Qle_bool_iff in H. congruence. }
  exists ca. split; [reflexivity|]. split; [exact Hpos|].
  unfold getConversionPreview. rewrite Hf, Ht, (Transfer.amount_not_le _ Ha).
  rewrite (Transfer.currency_eqb_false _ _ Hc), Eca, (Transfer.custom_amount_pos _ Hpos).
  reflexivity.
Qed.

(** Unticking "I know the exact exchange rate" drops the converted
    amount, so no later preview of that form uses a custom rate, even if
    the box is ticked again before a new amount is typed. *)
Theorem untick_custom_rate_drops_custom (td : TransferCreateRequest) :
  fst (onCustomRateChange false td) = false /\
  converted_amount (snd (onCustomRateChange false td)) = None /\
  forall (u : bool) (accounts : list Account) (rates : ExchangeRates) (p : ConversionPreview),
    getConversionPreview accounts (snd (onCustomRateChange false td)) u rates = Some p ->
    isCustomRate p = false.
Proof.
  split; [reflexivity|]. split; [reflexivity|].
  intros u accounts rates p. unfold getConversionPreview. simpl.
  destruct (find_account accounts (from_account_id td)),
    (find_account accounts (to_account_id td)); try discriminate.
  destruct (Qle_bool _ _); [discriminate|].
  destruct (currency_eqb _ _); intros E; inversion E; reflexivity.
Qed.

(** The destination select lists exactly the accounts whose id differs
    from the selected source, so any destination picked from it passes
    the same-account check and submitting opens the preview. *)
Theorem destination_options_pass_submit (accounts : list Account) (st : TransferPageState) :
  (forall a, In a (availableToAccounts accounts (transferData st)) <->
             In a accounts /\ acc_id a <> from_account_id (transferData st)) /\
  (forall a, In a (availableToAccounts accounts (transferData st)) ->
   snd (handleSubmit (mkPageState
          (mkTransfer (from_account_id (transferData st)) (acc_id a)
             (amount (transferData st)) (converted_amount (transferData st)))
          (showPreview st) (mutations st))) = PreviewShown).
Proof.
  assert (Hiff : forall a, In a (availableToAccounts accounts (transferData st)) <->
             In a accounts /\ acc_id a <> from_account_id (transferData st)).
  { intros a. unfold availableToAccounts. rewrite filter_bool, List.filter_In.
    rewrite negb_true_iff, Z.eqb_neq. reflexivity. }
  split; [exact Hiff|].
  intros a Hin. apply Hiff in Hin as [_ Hneq].
  unfold handleSubmit. simpl.
  rewrite (proj2 (Z.eqb_neq _ _) (fun E => Hneq (eq_sym E))). reflexivity.
Qed.

(** After a successful transfer the form is reset: the custom-rate
    option is off, no preview can be computed, the requests already sent
    are kept, and submitting the empty form is rejected by the
    same-account alert. *)
Theorem success_resets_form (st : TransferPageState) :
  let '(st', useCustomRate) := onTransferSuccess st in
  useCustomRate = false /\ showPreview st' = false /\ mutations st' = mutations st /\
  (forall accounts rates, getConversionPreview accounts (transferData st') useCustomRate rates = None) /\
  snd (handleSubmit st') = Alerted same_accounts_msg.
Proof.
  simpl. split; [reflexivity|]. split; [reflexivity|]. split; [reflexivity|]. split.
  - intros accounts rates. unfold getConversionPreview. simpl.
    destruct (find_account accounts 0); reflexivity.
  - reflexivity.
Qed.

End TransferPage.

(* ================================================================== *)
(** * Monthly figures *)

Module Monthly.

Lemma fold_abs_nonneg (l : list Transaction) (s : Q) :
  0 <= s -> 0 <= fold_left (fun total t => total + Qabs (t_amount t)) l s.
Proof.
  revert s. induction l as [|t l IH]; intros s Hs; simpl; [exact Hs|].
  apply IH. rewrite <- (Qplus_0_r 0). apply Qplus_le_compat; [exact Hs | apply Qabs_nonneg].
Qed.

(** [getMonthlyExpenses] sums absolute values, so it is never negative,
    whatever signs the stored amounts have. *)
Theorem getMonthlyExpenses_nonneg (transactions : list Transaction) (now : Now) :
  0 <= getMonthlyExpenses transactions now.
Proof. apply fold_abs_nonneg. apply Qle_refl. Qed.

Lemma filter_true_id {A : Type} (f : A -> bool) (l : list A) :
  Forall (fun x => f x = true) l -> List.filter f l = l.
Proof.
  induction 1 as [|x l Hx _ IH]; simpl; [reflexivity|]. now rewrite Hx, IH.
Qed.

Lemma filter_filter_andb {A : Type} (f g : A -> bool) (l : list A) :
  List.filter g (List.filter f l) = List.filter (fun x => f x && g x) l.
Proof.
  induction l as [|x l IH]; simpl; [reflexivity|].
  destruct (f x); simpl; [destruct (g x); simpl; now rewrite IH | exact IH].
Qed.

(** When every fetched transaction is in the headline currency (for
    instance all accounts and transactions share one currency), the
    dashboard's and the analytics page's monthly income equal
    [transactionService.getMonthlyIncome] on the same transactions. *)
Theorem headline_income_matches_service (accounts : list Account)
    (transactions : list Transaction) (now : Now) :
  Forall (fun t => t_currency t = tb_currency (calculateTotalBalance accounts)) transactions ->
  fst (dashboardMonthly accounts transactions now) = getMonthlyIncome transactions now /\
  av_totalIncome (analyticsView accounts transactions now) = getMonthlyIncome transactions now.
Proof.
  intros Hall.
  assert (Hc : Forall (fun t => currency_eqb (t_currency t)
                         (tb_currency (calculateTotalBalance accounts)) = true) transactions).
  { eapply Forall_impl; [exact Hall|]. intros t Ht. now apply Transfer.currency_eqb_true. }
  unfold dashboardMonthly, analyticsView, getMonthlyIncome, sum_amounts. simpl.
  rewrite !TransferPage.filter_bool. split.
  - rewrite filter_true_id.
    + f_equal. apply filter_filter_andb.
    + apply List.Forall_forall. intros t Hin.
      apply List.filter_In in Hin as [Hin _]. apply List.filter_In in Hin as [Hin _].
      exact (proj1 (List.Forall_forall _ _) Hc t Hin).
  - f_equal. rewrite filter_filter_andb. apply List.filter_ext_in.
    intros t Hin. rewrite (proj1 (List.Forall_forall _ _) Hc t Hin).
    now rewrite !andb_true_r.
Qed.

Lemma sum_amounts_nonneg (l : list Transaction) :
  Forall (fun t => 0 <= t_amount t) l -> 0 <= sum_amounts l.
Proof.
  unfold sum_amounts. intros Hall.
  assert (Hgen : forall s, 0 <= s -> 0 <= fold_left (fun sum t => sum + t_amount t) l s).
  { induction Hall as [|t l Ht _ IH]; intros s Hs; simpl; [exact Hs|].
    apply IH. rewrite <- (Qplus_0_r 0). apply Qplus_le_compat; assumption. }
  apply Hgen, Qle_refl.
Qed.

Lemma savingsRate_cases (v : AnalyticsView) :
  (av_totalIncome v <= 0 -> savingsRate v = 0) /\
  (0 <= av_totalExpenses v -> savingsRate v <= 100).
Proof.
  unfold savingsRate, Qgtb, netIncome. split.
  - intros Hle. apply Qle_bool_iff in Hle. now rewrite Hle.
  - intros HE.
    destruct (Qle_bool (av_totalIncome v) 0) eqn:E; simpl; [discriminate|].
    assert (HI : 0 < av_totalIncome v).
    { apply Qnot_le_lt. intros H. apply Qle_bool_iff in H. congruence. }
    assert (Hne : ~ av_totalIncome v == 0) by (intros H; rewrite H in HI; discriminate).
    setoid_replace ((av_totalIncome v - av_totalExpenses v) / av_totalIncome v * 100)
      with (100 - av_totalExpenses v / av_totalIncome v * 100) using relation Qeq
      by (field; exact Hne).
    assert (H : 0 <= av_totalExpenses v / av_totalIncome v * 100).
    { apply Qmult_le_0_compat; [|discriminate].
      apply Qmult_le_0_compat; [exact HE|]. apply Qinv_le_0_compat. now apply Qlt_le_weak. }
    apply Qle_minus_iff.
    setoid_replace (100 + - (100 - av_totalExpenses v / av_totalIncome v * 100))
      with (av_totalExpenses v / av_totalIncome v * 100) using relation Qeq by ring.
    exact H.
Qed.

(** The analytics page's savings rate is 0 when there is no positive
    income, and, when no transaction amount is negative, it is at most
    100 (percent). *)
Theorem savingsRate_bounds (accounts : list Account) (transactions : list Transaction)
    (now : Now) :
  (av_totalIncome (analyticsView accounts transactions now) <= 0 ->
   savingsRate (analyticsView accounts transactions now) = 0) /\
  (Forall (fun t => 0 <= t_amount t) transactions ->
   savingsRate (analyticsView accounts transactions now) <= 100).
Proof.
  destruct (savingsRate_cases (analyticsView accounts transactions now)) as [H1 H2].
  split; [exact H1|]. intros Hall. apply H2.
  unfold analyticsView. simpl. rewrite !TransferPage.filter_bool.
  apply sum_amounts_nonneg. apply List.Forall_forall. intros t Hin.
  apply List.filter_In in Hin as [Hin _]. apply List.filter_In in Hin as [Hin _].
  exact (proj1 (List.Forall_forall _ _) Hall t Hin).
Qed.

End Monthly.

(* ================================================================== *)
(** * The dashboard's spending pie *)

Module Pie.

(** The spending pie has at most five slices; each slice has a positive
    value and is named after a category of type EXPENSE. *)
Theorem expenseData_slices (categories : list Category)
    (transactions : list (Transaction * option Z)) (now : Now) :
  (length (expenseData categories transactions now) <= 5)%nat /\
  forall n v, In (n, v) (expenseData categories transactions now) ->
    0 < v /\ exists cat, In cat categories /\ cat_type cat = CategoryEXPENSE /\ cat_name cat = n.
Proof.
  unfold expenseData. split; [apply firstn_le_length|].
  intros n v Hin.
  assert (Hin' : forall {A : Type} (x : A) k l, In x (firstn k l) -> In x l).
  { intros A x k l H. rewrite <- (firstn_skipn k l). apply in_or_app. now left. }
  apply Hin' in Hin. apply List.filter_In in Hin as [Hin Hpos].
  unfold Qgtb in Hpos. simpl in Hpos.
  split.
  { apply Qnot_le_lt. intros H. apply Qle_bool_iff in H. rewrite H in Hpos. discriminate. }
  apply in_map_iff in Hin as [cat [Ecat Hcat]].
  apply List.filter_In in Hcat as [Hcat Hexp].
  exists cat. split; [exact Hcat|]. split.
  - now apply bool_decide_eq_true in Hexp.
  - now inversion Ecat.
Qed.

End Pie.

(* ================================================================== *)
(** * The login form's session storage *)

Module LoginStorage.

Lemma keys_differ : username_key <> password_key.
Proof. unfold username_key, password_key. discriminate. Qed.

(** In a browser, what the form has set survives a reload: a manager
    created on the storage left by [setUsername v] then [setPassword w]
    starts with username [v] and password [w]; after [clear] it starts
    empty. *)
Theorem reload_restores_form (m : LoginFormStateManager) (sto : SessionStorage)
    (v w : string) :
  let '(m1, s1) := setUsername true v m sto in
  let '(m2, s2) := setPassword true w m1 s1 in
  m2 = mkLoginForm v w (lf_initialized m) /\
  newLoginFormState true s2 = mkLoginForm v w true /\
  newLoginFormState true (snd (clear true m2 s2)) = mkLoginForm "" "" true.
Proof.
  simpl. split; [reflexivity|]. split.
  - unfold newLoginFormState, loadFromStorage. f_equal.
    + rewrite lookup_insert_ne by (intros E; apply keys_differ; congruence).
      rewrite lookup_insert_eq. reflexivity.
    + rewrite lookup_insert_eq. reflexivity.
  - unfold newLoginFormState, loadFromStorage. simpl. f_equal.
    + rewrite lookup_delete_ne by (intros E; apply keys_differ; congruence).
      rewrite lookup_delete_eq. reflexivity.
    + rewrite lookup_delete_eq. reflexivity.
Qed.

(** With or without a window and whether or not the manager has loaded,
    [getUsername] right after [setUsername v] returns [v], and
    [setUsername] does not change what [getPassword] returns. *)
Theorem setUsername_get (has_window : bool) (m : LoginFormStateManager)
    (sto : SessionStorage) (v : string) :
  let '(m1, s1) := setUsername has_window v m sto in
  fst (getUsername has_window m1 s1) = v /\
  fst (getPassword has_window m1 s1) = fst (getPassword has_window m sto).
Proof.
  destruct m as [u p init]. unfold setUsername, getUsername, getPassword. simpl.
  destruct init; simpl; [split; reflexivity|].
  unfold loadFromStorage. destruct has_window; simpl; [|split; reflexivity].
  rewrite lookup_insert_eq.
  rewrite lookup_insert_ne by (intros E; apply keys_differ; congruence).
  split; [|reflexivity].
  (* [sessionStorage.getItem(..) || ''] gives back [v], also for [v = ""] *)
  reflexivity.
Qed.

End LoginStorage.

(* ================================================================== *)
(** * The theorems applied at concrete inputs *)

Module Witnesses.

(** 10 EUR to a USD account at the sample rates: 10 / 0.92 * 1. *)
Lemma computed_rate_preview_witness :
  getConversionPreview [eur_1; usd_3] (mkTransfer 1 3 10 None) false rates_sample =
    Some (mkPreview 10 (round2 (10 / (92 # 100) * 1))
                    (round4 (10 / (92 # 100) * 1 / 10)) false false).
Proof.
  apply (Transfer.computed_rate_preview [eur_1; usd_3] (mkTransfer 1 3 10 None) false
           rates_sample eur_1 usd_3); try reflexivity; discriminate.
Defined.

Lemma same_currency_preview_witness :
  getConversionPreview [eur_1; eur_2] (mkTransfer 1 2 100 (Some 200)) true rates_sample =
    Some (mkPreview 100 100 1 true false).
Proof.
  apply (Transfer.same_currency_preview [eur_1; eur_2] (mkTransfer 1 2 100 (Some 200)) true
           eur_1 eur_2); reflexivity.
Defined.

Lemma custom_rate_preview_witness :
  getConversionPreview [eur_1; usd_3] (mkTransfer 1 3 100 (Some 108)) true rates_sample =
    Some (mkPreview 100 108 (round4 (108 / 100)) false true) /\
  getConversionPreview [eur_1; eur_2] (mkTransfer 1 2 100 (Some 200)) true rates_sample =
    Some (mkPreview 100 100 1 true false).
Proof.
  split.
  - apply (proj1 (Transfer.custom_rate_preview [eur_1; usd_3] (mkTransfer 1 3 100 (Some 108))
                    eur_1 usd_3 eq_refl eq_refl eq_refl) 108); try reflexivity; discriminate.
  - apply (proj2 (Transfer.custom_rate_preview [eur_1; eur_2] (mkTransfer 1 2 100 (Some 200))
                    eur_1 eur_2 eq_refl eq_refl eq_refl)); reflexivity.
Defined.

(** GBP is missing from the sample table. *)
Lemma missing_rate_defaults_to_one_witness :
  exists p, getConversionPreview [eur_1; mkAccount 4 0 GBP] (mkTransfer 1 4 10 None) false
              rates_sample = Some p.
Proof.
  apply (Transfer.missing_rate_defaults_to_one [eur_1; mkAccount 4 0 GBP]
           (mkTransfer 1 4 10 None) false rates_sample eur_1 (mkAccount 4 0 GBP));
    try reflexivity; discriminate.
Defined.

Lemma same_account_rejected_witness :
  handleSubmit (mkPageState (mkTransfer 1 1 10 None) false []) =
    (mkPageState (mkTransfer 1 1 10 None) false [], Alerted same_accounts_msg).
Proof. apply (Submit.same_account_rejected (mkPageState (mkTransfer 1 1 10 None) false [])).
  reflexivity.
Defined.

Lemma set_get_clear_witness :
  fst (getUsername true (fst (setUsername true "alice" (mkLoginForm "" "" false) ∅))
         (snd (setUsername true "alice" (mkLoginForm "" "" false) ∅))) = "alice".
Proof.
  apply (LoginFormState.set_get_clear true (mkLoginForm "" "" false) ∅ "alice").
  reflexivity.
Defined.

Lemma process_advances_one_period_witness :
  exists t' txn, processRecurring monthly_sample = inr (t', txn) /\
    valid_date (rt_next_due_date t') /\
    month_index (rt_next_due_date t') = (month_index (mkDate 2024 1 31) + 1)%Z /\
    day (rt_next_due_date t') = Z.min 31 (days_in_month (year (rt_next_due_date t'))
                                                       (month (rt_next_due_date t'))).
Proof.
  apply (Recurring.process_advances_one_period monthly_sample); [reflexivity|].
  unfold valid_date; vm_compute; repeat split; discriminate.
Defined.

End Witnesses.

(** The further theorems applied at concrete inputs. *)
Module MoreWitnesses.

(** 100 EUR and 30 USD: the EUR total is the larger one. *)
Lemma mixed_total_is_max_witness :
  let r := calculateTotalBalance [eur_1; usd_3] in
  (forall c, currency_sum [eur_1; usd_3] c <= tb_amount r) /\
  (r = mkTotal 0 USD \/ tb_amount r == currency_sum [eur_1; usd_3] (tb_currency r)).
Proof.
  apply (Totals.mixed_total_is_max [eur_1; usd_3] eur_1 usd_3);
    [simpl; auto | simpl; auto | discriminate].
Defined.

Lemma preview_requires_positive_amount_and_accounts_witness :
  0 < 100 /\ originalAmount (mkPreview 100 100 1 true false) = 100 /\
  find_account [eur_1; eur_2] 1 <> None /\ find_account [eur_1; eur_2] 2 <> None.
Proof.
  apply (TransferPage.preview_requires_positive_amount_and_accounts [eur_1; eur_2]
           (mkTransfer 1 2 100 None) false rates_sample (mkPreview 100 100 1 true false)).
  reflexivity.
Defined.

Lemma enabled_custom_submit_uses_custom_rate_witness :
  exists ca, converted_amount (mkTransfer 1 3 100 (Some 108)) = Some ca /\ 0 < ca /\
    getConversionPreview [eur_1; usd_3] (mkTransfer 1 3 100 (Some 108)) true rates_sample =
      Some (mkPreview 100 ca (round4 (ca / 100)) false true).
Proof.
  apply (TransferPage.enabled_custom_submit_uses_custom_rate [eur_1; usd_3]
           (mkTransfer 1 3 100 (Some 108)) rates_sample eur_1 usd_3);
    try reflexivity; discriminate.
Defined.

Lemma headline_income_matches_service_witness :
  fst (dashboardMonthly [eur_1] [income_50] (mkNow 10 2026)) =
    getMonthlyIncome [income_50] (mkNow 10 2026) /\
  av_totalIncome (analyticsView [eur_1] [income_50] (mkNow 10 2026)) =
    getMonthlyIncome [income_50] (mkNow 10 2026).
Proof.
  apply (Monthly.headline_income_matches_service [eur_1] [income_50] (mkNow 10 2026)).
  constructor; [reflexivity | constructor].
Defined.

End MoreWitnesses.
